(** * Platform detector of the ai-resource-manager skill

    Verification of [scripts/detect_platform.py]: the function
    [detect_platform], first as the mapping it computes from what the
    host reports, then as a call in a running process, and the script's
    entry point with its standard output and exit status.

    Python [str] values are modelled as [string], each character being a
    code point in U+0000..U+00FF; [lower] is [str.lower] on that range.
    The values of [platform.system()] and [platform.machine()] come from
    the host's uname record, modelled by [uname_result]. *)

From Stdlib Require Import Bool List NArith Ascii String.
Import ListNotations.

Local Open Scope string_scope.

(** ** Python strings *)

Module PyStr.

(** The code points below U+0100 that [str.lower] changes: A-Z and the
    Latin-1 capitals U+00C0..U+00D6, U+00D8..U+00DE (U+00D7 is the
    multiplication sign).  Each moves up by 32. *)
Definition is_upper (c : ascii) : bool :=
  let n := N_of_ascii c in
  ((65 <=? n) && (n <=? 90)
   || (192 <=? n) && (n <=? 214)
   || (216 <=? n) && (n <=? 222))%N.

Definition lower_char (c : ascii) : ascii :=
  if is_upper c then ascii_of_N (N_of_ascii c + 32) else c.

(** [s.lower()] *)
Fixpoint lower (s : string) : string :=
  match s with
  | EmptyString => EmptyString
  | String c s' => String (lower_char c) (lower s')
  end.

(** [x in xs] for a list of strings: some element compares equal. *)
Definition contains (xs : list string) (x : string) : bool :=
  existsb (String.eqb x) xs.

(** The line end that [print] writes after its argument. *)
Definition LF : ascii := ascii_of_N 10.
Definition newline : string := String LF EmptyString.

End PyStr.

Import PyStr.

(** ** The execution environment *)

(** What the [platform] module reports about the host. *)
Record uname_result : Type := mk_uname {
  system  : string;
  node    : string;
  release : string;
  version : string;
  machine : string
}.

(** ** detect_platform.py *)

Definition detect_platform (platform : uname_result) : string :=
  let os_name := lower (system platform) in
  let machine := lower (machine platform) in
  if os_name =? "linux" then
    let arch := if contains ["x86_64"; "amd64"] machine
                then "amd64" else "arm64" in
    "linux_" ++ arch
  else if os_name =? "darwin" then
    let arch := if machine =? "arm64" then "arm64" else "amd64" in
    "darwin_" ++ arch
  else if os_name =? "windows" then
    let arch := if contains ["x86_64"; "amd64"] machine
                then "amd64" else "arm64" in
    "windows_" ++ arch
  else
    "unknown".

(** ** The running process *)

(** [sys.stdout] when the interpreter starts: absent ([None]) when file
    descriptor 1 is closed; otherwise a text stream, write-through (the
    interpreter's -u option) or buffered, on a device that accepts what
    is written to it or rejects it (a full disk, a closed pipe). *)
Inductive stream : Type :=
| NoStream
| TextStream (write_through accepts : bool).

(** What a run can read and change: the host's uname record, the
    standard output stream, the text still in its buffer and the text
    the device has received. *)
Record world : Type := mk_world {
  uname : uname_result;
  sys_stdout : stream;
  pending : string;
  delivered : string
}.

Inductive exn : Type := OSError.

(** A computation either returns a value or raises, and leaves a world
    behind in both cases. *)
Inductive outcome (A : Type) : Type :=
| Returns (a : A) (w : world)
| Raises (e : exn) (w : world).

Arguments Returns {A} a w.
Arguments Raises {A} e w.

Definition M (A : Type) : Type := world -> outcome A.

Definition ret {A : Type} (a : A) : M A := fun w => Returns a w.

Definition bind {A B : Type} (m : M A) (k : A -> M B) : M B :=
  fun w =>
    match m w with
    | Returns a w' => k a w'
    | Raises e w' => Raises e w'
    end.

Notation "x <- m ;; k" := (bind m (fun x => k))
  (at level 61, m at next level, right associativity).

(** [platform.system()] and [platform.machine()] *)
Definition platform_system : M string :=
  fun w => Returns (system (uname w)) w.

Definition platform_machine : M string :=
  fun w => Returns (machine (uname w)) w.

(** The call [detect_platform()]: the body of the function, statement by
    statement, in a running process. *)
Definition detect_platform_call : M string :=
  s <- platform_system ;;
  let os_name := lower s in
  m <- platform_machine ;;
  let machine := lower m in
  if os_name =? "linux" then
    let arch := if contains ["x86_64"; "amd64"] machine
                then "amd64" else "arm64" in
    ret ("linux_" ++ arch)
  else if os_name =? "darwin" then
    let arch := if machine =? "arm64" then "arm64" else "amd64" in
    ret ("darwin_" ++ arch)
  else if os_name =? "windows" then
    let arch := if contains ["x86_64"; "amd64"] machine
                then "amd64" else "arm64" in
    ret ("windows_" ++ arch)
  else
    ret "unknown".

Definition buffer_text (text : string) (w : world) : world :=
  mk_world (uname w) (sys_stdout w) (pending w ++ text) (delivered w).

Definition deliver_text (text : string) (w : world) : world :=
  mk_world (uname w) (sys_stdout w) (pending w) (delivered w ++ text).

(** [sys.stdout.write(text)]: a write-through stream hands the text to
    the device at once and raises [OSError] when the device rejects it;
    a buffered stream keeps it for the next flush. *)
Definition write (text : string) : M unit :=
  fun w =>
    match sys_stdout w with
    | NoStream => Returns tt w
    | TextStream true true => Returns tt (deliver_text text w)
    | TextStream true false => Raises OSError w
    | TextStream false _ => Returns tt (buffer_text text w)
    end.

(** [print(s)]: nothing at all when [sys.stdout] is [None], otherwise
    [s] and the line end are written to it. *)
Definition print (s : string) : M unit :=
  fun w =>
    match sys_stdout w with
    | NoStream => Returns tt w
    | TextStream _ _ => write (s ++ newline) w
    end.

(** Flushing the stream: buffered text goes to the device, and
    [OSError] is raised when the device rejects it. *)
Definition flush : M unit :=
  fun w =>
    match sys_stdout w with
    | NoStream => Returns tt w
    | TextStream _ accepts =>
        if pending w =? "" then Returns tt w
        else if accepts
             then Returns tt (mk_world (uname w) (sys_stdout w) ""
                                       (delivered w ++ pending w))
             else Raises OSError w
    end.

(** The module body, run with [__name__] bound to [name]: the guarded
    [print(detect_platform())]. *)
Definition module_body (name : string) : M unit :=
  if name =? "__main__" then
    ident <- detect_platform_call ;;
    print ident
  else
    ret tt.

(** A finished run of the interpreter: what the device behind the
    standard output received, and the exit status. *)
Record process : Type := mk_process {
  stdout : string;
  exit_status : N
}.

(** The interpreter around a program: status 0 when the program ends,
    1 when an exception escapes it; then the standard output is flushed,
    and the status is 120 when that flush fails. *)
Definition run_program (body : M unit) (w : world) : process :=
  let (status, w1) := match body w with
                      | Returns _ w1 => (0%N, w1)
                      | Raises _ w1 => (1%N, w1)
                      end in
  match flush w1 with
  | Returns _ w2 => mk_process (delivered w2) status
  | Raises _ w2 => mk_process (delivered w2) 120
  end.

(** The world at start-up: nothing buffered, nothing written yet. *)
Definition boot (platform : uname_result) (out : stream) : world :=
  mk_world platform out "" "".

Definition script (name : string) (platform : uname_result) (out : stream)
  : process :=
  run_program (module_body name) (boot platform out).

(** Running the file as the command-line entry point. *)
Definition main (platform : uname_result) (out : stream) : process :=
  script "__main__" platform out.

(** The standard output is open and its device takes what is written. *)
Definition accepts_writes (out : stream) : bool :=
  match out with
  | NoStream => false
  | TextStream _ accepts => accepts
  end.

(** Two calls of [detect_platform()], one after the other. *)
Definition detect_platform_twice : M (string * string) :=
  a <- detect_platform_call ;;
  b <- detect_platform_call ;;
  ret (a, b).

(** ** Vocabulary of the specification *)

Definition os_tokens : list string := ["linux"; "darwin"; "windows"].
Definition arch_tokens : list string := ["amd64"; "arm64"].

Definition platform_identifiers : list string :=
  ["linux_amd64"; "linux_arm64"; "darwin_amd64"; "darwin_arm64";
   "windows_amd64"; "windows_arm64"; "unknown"].

(** The host with the given OS name and machine architecture, everything
    else left empty. *)
Definition host (os m : string) : uname_result :=
  mk_uname os "" "" "" m.

(** The part of an identifier before its first underscore (all of it
    when there is none), and the part after it. *)
Fixpoint os_token (ident : string) : string :=
  match ident with
  | EmptyString => EmptyString
  | String c rest =>
      if Ascii.eqb c "_" then EmptyString else String c (os_token rest)
  end.

Fixpoint arch_token (ident : string) : string :=
  match ident with
  | EmptyString => EmptyString
  | String c rest => if Ascii.eqb c "_" then rest else arch_token rest
  end.

(** Rule 1 of section 4.1, on the normalized architecture string: amd64
    when it is x86_64 or amd64, otherwise arm64. *)
Definition default_arm64_rule (m : string) : string :=
  if string_dec m "x86_64" then "amd64"
  else if string_dec m "amd64" then "amd64"
  else "arm64".

(** Rule 2 of section 4.1: arm64 when it is exactly arm64, otherwise
    amd64. *)
Definition default_amd64_rule (m : string) : string :=
  if string_dec m "arm64" then "arm64" else "amd64".

(** The environment after case normalization of the two strings read. *)
Definition lowercased (platform : uname_result) : uname_result :=
  mk_uname (lower (system platform)) (node platform) (release platform)
           (version platform) (lower (machine platform)).

(** Occurrences of a character in a string. *)
Fixpoint count_char (c : ascii) (s : string) : nat :=
  match s with
  | EmptyString => 0
  | String d s' => (if Ascii.eqb c d then 1 else 0) + count_char c s'
  end.

(** The machine strings that some branch of [detect_platform] names. *)
Definition known_machines : list string := ["x86_64"; "amd64"; "arm64"].

(** Lowercase ASCII letters, digits and the underscore. *)
Definition ident_char (c : ascii) : bool :=
  let n := N_of_ascii c in
  ((97 <=? n) && (n <=? 122) || (48 <=? n) && (n <=? 57) || (n =? 95))%N.

Fixpoint all_chars (f : ascii -> bool) (s : string) : bool :=
  match s with
  | EmptyString => true
  | String c s' => f c && all_chars f s'
  end.

(** ** Examples of section 8 *)

Example linux_x86_64 : detect_platform (host "linux" "x86_64") = "linux_amd64".
Proof. reflexivity. Qed.

Example linux_aarch64 : detect_platform (host "linux" "aarch64") = "linux_arm64".
Proof. reflexivity. Qed.

Example darwin_arm64 : detect_platform (host "darwin" "arm64") = "darwin_arm64".
Proof. reflexivity. Qed.

Example darwin_x86_64 : detect_platform (host "darwin" "x86_64") = "darwin_amd64".
Proof. reflexivity. Qed.

Example windows_AMD64 : detect_platform (host "windows" "AMD64") = "windows_amd64".
Proof. reflexivity. Qed.

Example freebsd_x86_64 : detect_platform (host "freebsd" "x86_64") = "unknown".
Proof. reflexivity. Qed.

Example Linux_as_reported : detect_platform (host "Linux" "x86_64") = "linux_amd64".
Proof. reflexivity. Qed.

(** ** Facts about strings *)

Lemma lower_char_idempotent (c : ascii) :
  lower_char (lower_char c) = lower_char c.
Proof.
  destruct c as [[] [] [] [] [] [] [] []]; reflexivity.
Qed.

Lemma lower_idempotent (s : string) : lower (lower s) = lower s.
Proof.
  induction s as [|c s IH]; simpl.
  - reflexivity.
  - now rewrite lower_char_idempotent, IH.
Qed.

Lemma contains_x86_64_amd64 (m : string) :
  contains ["x86_64"; "amd64"] m = true <-> m = "x86_64" \/ m = "amd64".
Proof.
  unfold contains; simpl.
  rewrite !orb_true_iff, !String.eqb_eq.
  intuition discriminate.
Qed.

Lemma contains_default_arm64_rule (m : string) :
  (if contains ["x86_64"; "amd64"] m then "amd64" else "arm64")
  = default_arm64_rule m.
Proof.
  unfold default_arm64_rule.
  destruct (contains _ m) eqn:E.
  - apply contains_x86_64_amd64 in E.
    destruct E as [-> | ->]; reflexivity.
  - destruct (string_dec m "x86_64") as [->|_]; [discriminate E|].
    destruct (string_dec m "amd64") as [->|_]; [discriminate E|].
    reflexivity.
Qed.

Lemma eqb_default_amd64_rule (m : string) :
  (if m =? "arm64" then "arm64" else "amd64") = default_amd64_rule m.
Proof.
  unfold default_amd64_rule.
  destruct (String.eqb_spec m "arm64") as [->|N].
  - reflexivity.
  - destruct (string_dec m "arm64"); [contradiction | reflexivity].
Qed.

(** ** The four branches of [detect_platform] *)

Lemma branch_linux (p : uname_result) :
  lower (system p) = "linux" ->
  detect_platform p = "linux_" ++ default_arm64_rule (lower (machine p)).
Proof.
  intros H. unfold detect_platform. rewrite H.
  cbv zeta. rewrite contains_default_arm64_rule. reflexivity.
Qed.

Lemma branch_darwin (p : uname_result) :
  lower (system p) = "darwin" ->
  detect_platform p = "darwin_" ++ default_amd64_rule (lower (machine p)).
Proof.
  intros H. unfold detect_platform. rewrite H.
  cbv zeta. rewrite eqb_default_amd64_rule. reflexivity.
Qed.

Lemma branch_windows (p : uname_result) :
  lower (system p) = "windows" ->
  detect_platform p = "windows_" ++ default_arm64_rule (lower (machine p)).
Proof.
  intros H. unfold detect_platform. rewrite H.
  cbv zeta. rewrite contains_default_arm64_rule. reflexivity.
Qed.

Lemma branch_unknown (p : uname_result) :
  lower (system p) <> "linux" ->
  lower (system p) <> "darwin" ->
  lower (system p) <> "windows" ->
  detect_platform p = "unknown".
Proof.
  intros Hl Hd Hw. unfold detect_platform. cbv zeta.
  apply String.eqb_neq in Hl, Hd, Hw.
  now rewrite Hl, Hd, Hw.
Qed.

Lemma default_arm64_rule_range (m : string) :
  default_arm64_rule m = "amd64" \/ default_arm64_rule m = "arm64".
Proof.
  unfold default_arm64_rule.
  destruct (string_dec m "x86_64"); [now left|].
  destruct (string_dec m "amd64"); [now left | now right].
Qed.

Lemma default_amd64_rule_range (m : string) :
  default_amd64_rule m = "amd64" \/ default_amd64_rule m = "arm64".
Proof.
  unfold default_amd64_rule.
  destruct (string_dec m "arm64"); [now right | now left].
Qed.

(** Which branch is taken depends on the normalized OS name alone. *)
Lemma os_name_cases (p : uname_result) :
  lower (system p) = "linux" \/ lower (system p) = "darwin"
  \/ lower (system p) = "windows"
  \/ (lower (system p) <> "linux" /\ lower (system p) <> "darwin"
      /\ lower (system p) <> "windows").
Proof.
  destruct (string_dec (lower (system p)) "linux"); [tauto|].
  destruct (string_dec (lower (system p)) "darwin"); [tauto|].
  destruct (string_dec (lower (system p)) "windows"); tauto.
Qed.

Lemma detect_platform_in_identifiers (p : uname_result) :
  In (detect_platform p) platform_identifiers.
Proof.
  destruct (os_name_cases p) as [H | [H | [H | (Hl & Hd & Hw)]]].
  - rewrite (branch_linux p H).
    destruct (default_arm64_rule_range (lower (machine p))) as [-> | ->];
      simpl; tauto.
  - rewrite (branch_darwin p H).
    destruct (default_amd64_rule_range (lower (machine p))) as [-> | ->];
      simpl; tauto.
  - rewrite (branch_windows p H).
    destruct (default_arm64_rule_range (lower (machine p))) as [-> | ->];
      simpl; tauto.
  - rewrite (branch_unknown p Hl Hd Hw). simpl; tauto.
Qed.

Lemma default_arm64_rule_amd64 (m : string) :
  default_arm64_rule m = "amd64" <-> m = "x86_64" \/ m = "amd64".
Proof.
  unfold default_arm64_rule.
  destruct (string_dec m "x86_64"); [tauto|].
  destruct (string_dec m "amd64"); [tauto|].
  split; [discriminate | tauto].
Qed.

Lemma default_amd64_rule_arm64 (m : string) :
  default_amd64_rule m = "arm64" <-> m = "arm64".
Proof.
  unfold default_amd64_rule.
  destruct (string_dec m "arm64"); [tauto|].
  split; [discriminate | tauto].
Qed.

(** The OS token of the result is the normalized OS name when that is a
    recognized one, and the result itself otherwise. *)
Lemma os_token_detect_platform (p : uname_result) :
  os_token (detect_platform p)
  = if contains os_tokens (lower (system p))
    then lower (system p) else "unknown".
Proof.
  destruct (os_name_cases p) as [H | [H | [H | (Hl & Hd & Hw)]]].
  - rewrite (branch_linux p H), H. reflexivity.
  - rewrite (branch_darwin p H), H. reflexivity.
  - rewrite (branch_windows p H), H. reflexivity.
  - rewrite (branch_unknown p Hl Hd Hw).
    apply String.eqb_neq in Hl, Hd, Hw.
    unfold contains, os_tokens; simpl.
    now rewrite Hl, Hd, Hw.
Qed.

(** ** The properties of the specification *)

(** C1: whatever the OS name and the machine architecture, the result of
    [detect_platform] is one of the seven identifiers linux_amd64,
    linux_arm64, darwin_amd64, darwin_arm64, windows_amd64, windows_arm64,
    unknown: it is exactly "unknown", or an OS token of linux, darwin,
    windows joined by an underscore to an architecture token of amd64,
    arm64. *)
Theorem detect_platform_output_format (p : uname_result) :
  In (detect_platform p) platform_identifiers
  /\ (detect_platform p = "unknown"
      \/ exists os arch,
           In os os_tokens /\ In arch arch_tokens
           /\ detect_platform p = os ++ "_" ++ arch).
Proof.
  split; [apply detect_platform_in_identifiers|].
  destruct (os_name_cases p) as [H | [H | [H | (Hl & Hd & Hw)]]].
  - right. exists "linux", (default_arm64_rule (lower (machine p))).
    rewrite (branch_linux p H).
    destruct (default_arm64_rule_range (lower (machine p))) as [-> | ->];
      simpl; tauto.
  - right. exists "darwin", (default_amd64_rule (lower (machine p))).
    rewrite (branch_darwin p H).
    destruct (default_amd64_rule_range (lower (machine p))) as [-> | ->];
      simpl; tauto.
  - right. exists "windows", (default_arm64_rule (lower (machine p))).
    rewrite (branch_windows p H).
    destruct (default_arm64_rule_range (lower (machine p))) as [-> | ->];
      simpl; tauto.
  - left. now apply branch_unknown.
Qed.

(** C2: when the lowercased OS name is "linux", the result is
    "linux_amd64" if the lowercased machine string is "x86_64" or "amd64",
    and "linux_arm64" for every other machine string. *)
Theorem linux_architecture_rule (p : uname_result) :
  lower (system p) = "linux" ->
  (lower (machine p) = "x86_64" \/ lower (machine p) = "amd64" ->
   detect_platform p = "linux_amd64")
  /\ (lower (machine p) <> "x86_64" -> lower (machine p) <> "amd64" ->
      detect_platform p = "linux_arm64").
Proof.
  intros H. rewrite (branch_linux p H).
  pose proof (default_arm64_rule_amd64 (lower (machine p))) as A.
  destruct (default_arm64_rule_range (lower (machine p))) as [E | E];
    rewrite E in *; split.
  - reflexivity.
  - intros N1 N2. destruct (proj1 A eq_refl); contradiction.
  - intros Hm. apply A in Hm. discriminate Hm.
  - reflexivity.
Qed.

(** On Linux, aarch64 is not one of the two amd64 spellings and falls to
    arm64. *)
Lemma linux_architecture_rule_witness :
  lower (system (host "linux" "aarch64")) = "linux"
  /\ detect_platform (host "linux" "aarch64") = "linux_arm64".
Proof.
  split; [reflexivity|].
  apply (linux_architecture_rule (host "linux" "aarch64"));
    [reflexivity | discriminate | discriminate].
Defined.

(** C3: when the lowercased OS name is "darwin", the result is
    "darwin_arm64" if the lowercased machine string is exactly "arm64",
    and "darwin_amd64" for every other machine string. *)
Theorem darwin_architecture_rule (p : uname_result) :
  lower (system p) = "darwin" ->
  (lower (machine p) = "arm64" -> detect_platform p = "darwin_arm64")
  /\ (lower (machine p) <> "arm64" -> detect_platform p = "darwin_amd64").
Proof.
  intros H. rewrite (branch_darwin p H).
  pose proof (default_amd64_rule_arm64 (lower (machine p))) as A.
  destruct (default_amd64_rule_range (lower (machine p))) as [E | E];
    rewrite E in *; split.
  - intros Hm. apply A in Hm. discriminate Hm.
  - reflexivity.
  - reflexivity.
  - intros N. destruct N. now apply A.
Qed.

(** On Darwin, x86_64 is not arm64 and falls to amd64. *)
Lemma darwin_architecture_rule_witness :
  lower (system (host "darwin" "x86_64")) = "darwin"
  /\ detect_platform (host "darwin" "x86_64") = "darwin_amd64".
Proof.
  split; [reflexivity|].
  apply (darwin_architecture_rule (host "darwin" "x86_64"));
    [reflexivity | discriminate].
Defined.

(** C4: the Windows branch applies the architecture rule of the Linux
    branch.  For a Linux host and a Windows host reporting the same
    machine string, the architecture token of the two results is the same;
    it is amd64 exactly when the lowercased machine string is "x86_64" or
    "amd64" and arm64 otherwise, as rule 1 of the specification says; and
    the Windows result is "windows_" followed by that token. *)
Theorem windows_rule_same_as_linux (pl pw : uname_result) :
  lower (system pl) = "linux" ->
  lower (system pw) = "windows" ->
  machine pl = machine pw ->
  arch_token (detect_platform pw) = arch_token (detect_platform pl)
  /\ arch_token (detect_platform pw) = default_arm64_rule (lower (machine pw))
  /\ (arch_token (detect_platform pw) = "amd64"
      <-> lower (machine pw) = "x86_64" \/ lower (machine pw) = "amd64")
  /\ (arch_token (detect_platform pw) <> "amd64" ->
      arch_token (detect_platform pw) = "arm64")
  /\ detect_platform pw = "windows_" ++ arch_token (detect_platform pl).
Proof.
  intros Hl Hw Hm.
  rewrite (branch_linux pl Hl), (branch_windows pw Hw), Hm.
  change (arch_token ("windows_" ++ ?a)) with a.
  change (arch_token ("linux_" ++ ?a)) with a.
  repeat split.
  - apply default_arm64_rule_amd64.
  - apply default_arm64_rule_amd64.
  - intros N.
    destruct (default_arm64_rule_range (lower (machine pw))); tauto.
Qed.

(** A Linux host and a Windows host that both report AMD64. *)
Lemma windows_rule_same_as_linux_witness :
  detect_platform (host "Windows" "AMD64")
  = "windows_" ++ arch_token (detect_platform (host "Linux" "AMD64")).
Proof.
  apply (windows_rule_same_as_linux
           (host "Linux" "AMD64") (host "Windows" "AMD64"));
    reflexivity.
Defined.

(** C5: when the lowercased OS name is none of "linux", "darwin",
    "windows", the result is the literal "unknown", whatever the machine
    string. *)
Theorem unrecognized_os_is_unknown (p : uname_result) :
  lower (system p) <> "linux" ->
  lower (system p) <> "darwin" ->
  lower (system p) <> "windows" ->
  detect_platform p = "unknown".
Proof.
  apply branch_unknown.
Qed.

(** FreeBSD on x86_64 is reported as unknown, with no architecture
    suffix. *)
Lemma unrecognized_os_is_unknown_witness :
  detect_platform (host "freebsd" "x86_64") = "unknown".
Proof.
  apply (unrecognized_os_is_unknown (host "freebsd" "x86_64"));
    vm_compute; discriminate.
Defined.

(** C7: matching is case-insensitive through lowercase normalization: the
    result on an environment equals the result on the environment whose
    OS name and machine string were lowercased beforehand, and
    ("windows", "AMD64") gives "windows_amd64". *)
Theorem detect_platform_case_insensitive :
  (forall p, detect_platform p = detect_platform (lowercased p))
  /\ (forall os m,
        detect_platform (host os m) = detect_platform (host (lower os) (lower m)))
  /\ detect_platform (host "windows" "AMD64") = "windows_amd64".
Proof.
  repeat split.
  - intros p. unfold detect_platform, lowercased; simpl.
    now rewrite !lower_idempotent.
  - intros os m. unfold detect_platform, host; simpl.
    now rewrite !lower_idempotent.
Qed.

Lemma count_char_LF_identifier (ident : string) :
  In ident platform_identifiers -> count_char LF (ident ++ newline) = 1.
Proof.
  unfold platform_identifiers; simpl.
  intros [<- | [<- | [<- | [<- | [<- | [<- | [<- | []]]]]]]]; reflexivity.
Qed.

(** C10: the machine string has no influence on whether the OS is
    recognized: two environments with the same OS name give results with
    the same OS token, whatever their machine strings; and when the
    lowercased OS name is none of "linux", "darwin", "windows", both
    results are "unknown". *)
Theorem os_token_independent_of_machine (p1 p2 : uname_result) :
  system p1 = system p2 ->
  os_token (detect_platform p1) = os_token (detect_platform p2)
  /\ (~ In (lower (system p1)) os_tokens ->
      detect_platform p1 = "unknown" /\ detect_platform p2 = "unknown").
Proof.
  intros Hs. split.
  - now rewrite !os_token_detect_platform, Hs.
  - unfold os_tokens; simpl. intros N.
    split; apply branch_unknown; rewrite <- ?Hs; intuition.
Qed.

(** The same Darwin host name with two different machine strings. *)
Lemma os_token_independent_of_machine_witness :
  os_token (detect_platform (host "Darwin" "arm64"))
  = os_token (detect_platform (host "Darwin" "riscv64")).
Proof.
  apply (os_token_independent_of_machine
           (host "Darwin" "arm64") (host "Darwin" "riscv64")).
  reflexivity.
Defined.

(** ** The call in a running process *)

(** The call returns what the mapping gives on the host's uname record,
    and leaves the world as it found it. *)
Lemma detect_platform_call_returns (w : world) :
  detect_platform_call w = Returns (detect_platform (uname w)) w.
Proof.
  unfold detect_platform_call, detect_platform, bind,
    platform_system, platform_machine, ret.
  cbv beta iota zeta.
  destruct (lower (system (uname w)) =? "linux"); [reflexivity|].
  destruct (lower (system (uname w)) =? "darwin"); [reflexivity|].
  destruct (lower (system (uname w)) =? "windows"); reflexivity.
Qed.

Lemma module_body_main (w : world) :
  module_body "__main__" w = print (detect_platform (uname w)) w.
Proof.
  unfold module_body, bind; simpl.
  now rewrite detect_platform_call_returns.
Qed.

Lemma append_same (s t : string) : s ++ t = s -> t = "".
Proof.
  induction s as [|c s IH]; simpl; intros E.
  - exact E.
  - injection E as E. now apply IH.
Qed.

Lemma line_not_empty (s : string) : s ++ newline <> "".
Proof.
  destruct s; discriminate.
Qed.

(** C6: the call [detect_platform()] is total for every OS name and
    machine string the host may report: in every world it returns, it
    raises no exception, and what it returns is a string, one of the
    seven identifiers.  Termination is that of [lower], a recursion on
    the characters of its argument. *)
Theorem detect_platform_never_raises (w : world) :
  (exists ident,
      detect_platform_call w = Returns ident w
      /\ In ident platform_identifiers)
  /\ (forall e w', detect_platform_call w <> Raises e w').
Proof.
  rewrite detect_platform_call_returns. split.
  - exists (detect_platform (uname w)).
    split; [reflexivity | apply detect_platform_in_identifiers].
  - intros e w'. discriminate.
Qed.

(** C8, as the code has it: run as the command-line entry point with a
    standard output that is open and accepts what is written to it, the
    program writes the string returned by [detect_platform] followed by
    a newline, which is the only newline written, and exits with status
    0, for every OS name and machine string. *)
Theorem main_prints_one_line (p : uname_result) (out : stream) :
  accepts_writes out = true ->
  stdout (main p out) = detect_platform p ++ newline
  /\ count_char LF (stdout (main p out)) = 1
  /\ exit_status (main p out) = 0%N.
Proof.
  intros Hout.
  assert (E : main p out = mk_process (detect_platform p ++ newline) 0).
  { unfold main, script, run_program.
    rewrite module_body_main.
    destruct out as [|wt acc]; [discriminate Hout|].
    simpl in Hout; subst acc.
    unfold print, write, flush, boot; simpl.
    destruct wt; simpl.
    - reflexivity.
    - destruct (String.eqb_spec (detect_platform p ++ newline) "") as [K|_].
      + now apply line_not_empty in K.
      + reflexivity. }
  rewrite E; simpl. repeat split.
  apply count_char_LF_identifier, detect_platform_in_identifiers.
Qed.

(** A Linux host whose standard output is a buffered stream on a file. *)
Lemma main_prints_one_line_witness :
  stdout (main (host "Linux" "x86_64") (TextStream false true))
  = detect_platform (host "Linux" "x86_64") ++ newline
  /\ count_char LF
       (stdout (main (host "Linux" "x86_64") (TextStream false true))) = 1
  /\ exit_status (main (host "Linux" "x86_64") (TextStream false true)) = 0%N.
Proof.
  apply (main_prints_one_line (host "Linux" "x86_64") (TextStream false true)).
  reflexivity.
Defined.

(** C8, as the specification has it, fails: on a device that rejects the
    buffered line (a full disk), nothing is written and the exit status
    is 120. *)
Lemma main_on_full_device :
  main (host "Linux" "x86_64") (TextStream false false) = mk_process "" 120
  /\ ~ (stdout (main (host "Linux" "x86_64") (TextStream false false))
        = detect_platform (host "Linux" "x86_64") ++ newline
        /\ exit_status (main (host "Linux" "x86_64") (TextStream false false))
           = 0%N).
Proof.
  split; [reflexivity|].
  intros [_ E]. vm_compute in E. discriminate E.
Qed.

(** C9: the call is deterministic.  In two worlds where the host reports
    the same OS name and the same machine string, whatever else differs
    between them, the call returns the same string; and two calls one
    after the other in one process return the same string twice, the
    first leaving the world as the second needs it. *)
Theorem detect_platform_deterministic (w1 w2 : world) :
  system (uname w1) = system (uname w2) ->
  machine (uname w1) = machine (uname w2) ->
  exists ident,
    detect_platform_call w1 = Returns ident w1
    /\ detect_platform_call w2 = Returns ident w2
    /\ detect_platform_twice w1 = Returns (ident, ident) w1.
Proof.
  intros Hs Hm.
  exists (detect_platform (uname w1)).
  assert (E : detect_platform (uname w2) = detect_platform (uname w1))
    by (unfold detect_platform; now rewrite Hs, Hm).
  repeat split.
  - apply detect_platform_call_returns.
  - rewrite <- E. apply detect_platform_call_returns.
  - unfold detect_platform_twice, bind, ret.
    now rewrite !detect_platform_call_returns.
Qed.

(** Two Linux processes that differ in node name, release, version,
    standard output and text already written. *)
Lemma detect_platform_deterministic_witness :
  exists ident,
    detect_platform_call
      (mk_world (mk_uname "Linux" "alpha" "6.1.0" "#1 SMP" "x86_64")
                (TextStream false true) "" "")
    = Returns ident
        (mk_world (mk_uname "Linux" "alpha" "6.1.0" "#1 SMP" "x86_64")
                  (TextStream false true) "" "")
    /\ detect_platform_call
         (mk_world (mk_uname "Linux" "beta" "5.15.0" "#42" "x86_64")
                   NoStream "" "earlier output")
       = Returns ident
           (mk_world (mk_uname "Linux" "beta" "5.15.0" "#42" "x86_64")
                     NoStream "" "earlier output")
    /\ detect_platform_twice
         (mk_world (mk_uname "Linux" "alpha" "6.1.0" "#1 SMP" "x86_64")
                   (TextStream false true) "" "")
       = Returns (ident, ident)
           (mk_world (mk_uname "Linux" "alpha" "6.1.0" "#1 SMP" "x86_64")
                     (TextStream false true) "" "").
Proof.
  apply (detect_platform_deterministic
           (mk_world (mk_uname "Linux" "alpha" "6.1.0" "#1 SMP" "x86_64")
                     (TextStream false true) "" "")
           (mk_world (mk_uname "Linux" "beta" "5.15.0" "#42" "x86_64")
                     NoStream "" "earlier output"));
    reflexivity.
Defined.

(** ** Further properties of the code *)

Lemma lower_app (a b : string) : lower (a ++ b) = lower a ++ lower b.
Proof.
  induction a as [|c a IH]; simpl; [reflexivity | now rewrite IH].
Qed.

Lemma lower_empty (s : string) : lower s = "" -> s = "".
Proof.
  destruct s; simpl; [reflexivity | discriminate].
Qed.

Lemma rules_agree (m : string) :
  default_arm64_rule m = default_amd64_rule m <-> In m known_machines.
Proof.
  unfold default_arm64_rule, default_amd64_rule, known_machines; simpl.
  destruct (string_dec m "x86_64") as [-> | N1]; [simpl; tauto|].
  destruct (string_dec m "amd64") as [-> | N2]; [simpl; tauto|].
  destruct (string_dec m "arm64") as [-> | N3]; [simpl; tauto|].
  split; [discriminate|].
  intros [E | [E | [E | []]]]; symmetry in E; contradiction.
Qed.

(** X1: the module body leaves the process untouched (it returns with
    nothing buffered, nothing written and no exception) exactly when it
    is not run under the name "__main__", or [sys.stdout] is [None].
    Under any other name the guard skips the print, whatever the state
    of the standard output; under "__main__" with a stream present the
    print always buffers text, writes it or raises. *)
Theorem module_body_untouched (name : string) (w : world) :
  module_body name w = Returns tt w
  <-> name <> "__main__" \/ sys_stdout w = NoStream.
Proof.
  destruct (String.eqb_spec name "__main__") as [-> | N].
  - rewrite module_body_main. unfold print, write.
    destruct (sys_stdout w) as [|wt acc] eqn:S.
    + split; auto.
    + split; [|intros [H | H]; [contradiction | discriminate]].
      intros E. exfalso.
      apply (line_not_empty (detect_platform (uname w))).
      destruct wt; [destruct acc; [|discriminate E]|]; injection E as E.
      * apply (f_equal delivered) in E. simpl in E.
        now apply append_same in E.
      * apply (f_equal pending) in E. simpl in E.
        now apply append_same in E.
  - unfold module_body. apply String.eqb_neq in N. rewrite N.
    split; [intros _ | intros _; reflexivity].
    left. now apply String.eqb_neq.
Qed.

(** X2: "unknown" is returned only for an unrecognized OS: the result is
    "unknown" exactly when the lowercased OS name is none of linux,
    darwin, windows. *)
Theorem unknown_iff_unrecognized (p : uname_result) :
  detect_platform p = "unknown" <-> ~ In (lower (system p)) os_tokens.
Proof.
  unfold os_tokens; simpl.
  destruct (os_name_cases p) as [H | [H | [H | (Hl & Hd & Hw)]]].
  - rewrite (branch_linux p H), H.
    split; [simpl; discriminate | intros N; destruct N; auto].
  - rewrite (branch_darwin p H), H.
    split; [simpl; discriminate | intros N; destruct N; auto].
  - rewrite (branch_windows p H), H.
    split; [simpl; discriminate | intros N; destruct N; auto].
  - rewrite (branch_unknown p Hl Hd Hw).
    split; [|reflexivity].
    intros _ [E | [E | [E | []]]]; symmetry in E; contradiction.
Qed.

(** X3: the OS part of the result reports the OS faithfully: for each of
    linux, darwin, windows, the result is that token joined to an
    architecture token exactly when the lowercased OS name is that
    token. *)
Theorem os_part_reflects_os_name (p : uname_result) (os : string) :
  In os os_tokens ->
  (exists arch, In arch arch_tokens /\ detect_platform p = os ++ "_" ++ arch)
  <-> lower (system p) = os.
Proof.
  intros Hos. split.
  - intros (arch & _ & E).
    unfold os_tokens in Hos; simpl in Hos.
    destruct (os_name_cases p) as [H | [H | [H | (Hl & Hd & Hw)]]].
    + rewrite (branch_linux p H) in E. rewrite H.
      destruct Hos as [<- | [<- | [<- | []]]];
        [reflexivity | discriminate E | discriminate E].
    + rewrite (branch_darwin p H) in E. rewrite H.
      destruct Hos as [<- | [<- | [<- | []]]];
        [discriminate E | reflexivity | discriminate E].
    + rewrite (branch_windows p H) in E. rewrite H.
      destruct Hos as [<- | [<- | [<- | []]]];
        [discriminate E | discriminate E | reflexivity].
    + rewrite (branch_unknown p Hl Hd Hw) in E.
      destruct Hos as [<- | [<- | [<- | []]]]; discriminate E.
  - intros <-.
    pose proof (default_arm64_rule_range (lower (machine p))) as R1.
    pose proof (default_amd64_rule_range (lower (machine p))) as R2.
    unfold os_tokens in Hos; simpl in Hos.
    destruct Hos as [E | [E | [E | []]]]; symmetry in E.
    + exists (default_arm64_rule (lower (machine p))).
      rewrite (branch_linux p E), E.
      split; [simpl; intuition congruence | reflexivity].
    + exists (default_amd64_rule (lower (machine p))).
      rewrite (branch_darwin p E), E.
      split; [simpl; intuition congruence | reflexivity].
    + exists (default_arm64_rule (lower (machine p))).
      rewrite (branch_windows p E), E.
      split; [simpl; intuition congruence | reflexivity].
Qed.

(** A Darwin host, whatever the case of its name. *)
Lemma os_part_reflects_os_name_witness :
  exists arch,
    In arch arch_tokens
    /\ detect_platform (host "Darwin" "arm64") = "darwin" ++ "_" ++ arch.
Proof.
  apply (os_part_reflects_os_name (host "Darwin" "arm64") "darwin").
  - simpl; tauto.
  - reflexivity.
Defined.

(** X4: the Linux and the Darwin branch default in opposite directions.
    For a Linux host and a Darwin host reporting the same machine string,
    the two results carry the same architecture token exactly when the
    lowercased machine string is one of x86_64, amd64, arm64; on every
    other machine string Linux says arm64 and Darwin says amd64. *)
Theorem linux_darwin_agree_iff_known (pl pd : uname_result) :
  lower (system pl) = "linux" ->
  lower (system pd) = "darwin" ->
  machine pl = machine pd ->
  (arch_token (detect_platform pl) = arch_token (detect_platform pd)
   <-> In (lower (machine pl)) known_machines)
  /\ (~ In (lower (machine pl)) known_machines ->
      detect_platform pl = "linux_arm64"
      /\ detect_platform pd = "darwin_amd64").
Proof.
  intros Hl Hd Hm.
  rewrite (branch_linux pl Hl), (branch_darwin pd Hd), <- Hm.
  change (arch_token ("linux_" ++ ?a)) with a.
  change (arch_token ("darwin_" ++ ?a)) with a.
  split; [apply rules_agree|].
  intros N. rewrite <- rules_agree in N.
  destruct (default_arm64_rule_range (lower (machine pl))) as [E1 | E1];
    destruct (default_amd64_rule_range (lower (machine pl))) as [E2 | E2];
    rewrite E1, E2 in *; try (now destruct N).
  - pose proof (proj1 (default_arm64_rule_amd64 _) E1) as K.
    pose proof (proj1 (default_amd64_rule_arm64 _) E2) as K'.
    rewrite K' in K. destruct K; discriminate.
  - split; reflexivity.
Qed.

(** The same aarch64 machine string under Linux and under Darwin. *)
Lemma linux_darwin_agree_iff_known_witness :
  detect_platform (host "Linux" "aarch64") = "linux_arm64"
  /\ detect_platform (host "Darwin" "aarch64") = "darwin_amd64".
Proof.
  apply (linux_darwin_agree_iff_known
           (host "Linux" "aarch64") (host "Darwin" "aarch64"));
    try reflexivity.
  vm_compute. intros [E | [E | [E | []]]]; discriminate E.
Defined.

(** X5: the result is made of lowercase ASCII letters, digits and
    underscores only, is at most 13 characters long, and is left
    unchanged by lowercasing. *)
Theorem identifier_alphabet (p : uname_result) :
  all_chars ident_char (detect_platform p) = true
  /\ String.length (detect_platform p) <= 13
  /\ lower (detect_platform p) = detect_platform p.
Proof.
  pose proof (detect_platform_in_identifiers p) as H.
  unfold platform_identifiers in H; simpl in H.
  destruct H as [<- | [<- | [<- | [<- | [<- | [<- | [<- | []]]]]]]];
    repeat split; vm_compute; try reflexivity; repeat constructor.
Qed.

(** X6: each of the seven identifiers is produced on some host: no
    branch of [detect_platform] is dead. *)
Theorem every_identifier_reachable (ident : string) :
  In ident platform_identifiers ->
  exists os m, detect_platform (host os m) = ident.
Proof.
  unfold platform_identifiers; simpl.
  intros [<- | [<- | [<- | [<- | [<- | [<- | [<- | []]]]]]]].
  - now exists "Linux", "x86_64".
  - now exists "Linux", "aarch64".
  - now exists "Darwin", "x86_64".
  - now exists "Darwin", "arm64".
  - now exists "Windows", "AMD64".
  - now exists "Windows", "ARM64".
  - now exists "FreeBSD", "amd64".
Qed.

(** The Windows arm64 identifier is produced. *)
Lemma every_identifier_reachable_witness :
  exists os m, detect_platform (host os m) = "windows_arm64".
Proof.
  apply (every_identifier_reachable "windows_arm64").
  simpl; tauto.
Defined.

(** X7: the OS name is matched whole, not by prefix: a name that is
    linux, darwin or windows (in any case) followed by at least one more
    character is unrecognized, and the result is "unknown". *)
Theorem os_name_with_suffix_unknown (p : uname_result) (name suffix : string) :
  In (lower name) os_tokens ->
  suffix <> "" ->
  system p = name ++ suffix ->
  detect_platform p = "unknown".
Proof.
  intros Hin Hsuf Hsys.
  assert (Hs : lower suffix <> "") by (intros E; now apply lower_empty in E).
  unfold os_tokens in Hin; simpl in Hin.
  apply branch_unknown; rewrite Hsys, lower_app;
    destruct Hin as [<- | [<- | [<- | []]]]; simpl; intros E;
    try discriminate E; injection E as E; contradiction.
Qed.

(** The name "linux2": linux followed by a digit. *)
Lemma os_name_with_suffix_unknown_witness :
  detect_platform (host "linux2" "x86_64") = "unknown".
Proof.
  apply (os_name_with_suffix_unknown (host "linux2" "x86_64") "linux" "2").
  - simpl; tauto.
  - discriminate.
  - reflexivity.
Defined.
